(** * MCP23009 as a one-hot general-purpose output expander

    A shallow embedding of the driver in [mcp23009.c] and the properties
    of its value-to-bitmask translation, of the configuration sequence
    issued by the probe routine and of the IIO read/write entry points.

    The driver threads two pieces of state through every call: the
    private data of the IIO device ([struct mcp23009_data]) and the I2C
    adapter it talks to.  Both live in one [world] record and the
    functions of the driver are written in the state monad over it. *)

From Stdlib Require Import ZArith List Bool Lia.
From ExtLib Require Import Structures.Monad Structures.MonadState.
From ExtLib Require Import Data.Monads.StateMonad.
Import ListNotations.
Import MonadNotation.
Local Open Scope Z_scope.
Local Open Scope monad_scope.

(** ** C integer types *)

Module CTypes.

(** [u8]: stores keep the low eight bits. *)
Definition to_u8 (x : Z) : Z := x mod 2 ^ 8.

(** [unsigned]/[u32]: the usual arithmetic conversion of an [int]
    compared with an [unsigned]. *)
Definition to_u32 (x : Z) : Z := x mod 2 ^ 32.

(** [unsigned long] of the kernel's LP64 targets. *)
Definition ulong_bits : Z := 64.
Definition to_ulong (x : Z) : Z := x mod 2 ^ ulong_bits.

(** [~x] on an [unsigned long]. *)
Definition ulong_not (x : Z) : Z := to_ulong (Z.lnot x).

(** Values an [int] argument can take. *)
Definition int_range (x : Z) : Prop := - 2 ^ 31 <= x < 2 ^ 31.

(** Values an [unsigned] field can take. *)
Definition u32_range (x : Z) : Prop := 0 <= x < 2 ^ 32.

End CTypes.
Import CTypes.

(** ** Kernel constants used by the driver *)

Module Errno.
Definition EIO : Z := 5.
Definition ENOMEM : Z := 12.
Definition ENODEV : Z := 19.
Definition EINVAL : Z := 22.
End Errno.
Import Errno.

Module IIO.
(** [enum iio_chan_info_enum] and the return-type tag of [read_raw]. *)
Definition IIO_CHAN_INFO_RAW : Z := 0.
Definition IIO_CHAN_INFO_SCALE : Z := 2.
Definition IIO_VAL_INT : Z := 1.
End IIO.
Import IIO.

(** ** Driver state *)

(** [struct mcp23009_data]; the [client] pointer is the adapter of the
    enclosing [world]. *)
Record mcp23009_data : Type := mk_data {
  id : Z;
  num_out : Z;
  out_value : Z;
  inout_mask : Z
}.

(** The private area handed out by [devm_iio_device_alloc] is
    zero-filled. *)
Definition zeroed_data : mcp23009_data := mk_data 0 0 0 0.

Definition set_id (v : Z) (d : mcp23009_data) : mcp23009_data :=
  mk_data v (num_out d) (out_value d) (inout_mask d).
Definition set_num_out (v : Z) (d : mcp23009_data) : mcp23009_data :=
  mk_data (id d) v (out_value d) (inout_mask d).
Definition set_out_value (v : Z) (d : mcp23009_data) : mcp23009_data :=
  mk_data (id d) (num_out d) v (inout_mask d).
Definition set_inout_mask (v : Z) (d : mcp23009_data) : mcp23009_data :=
  mk_data (id d) (num_out d) (out_value d) v.

(** ** The I2C adapter

    [sent] records every buffer handed to [i2c_master_send], oldest
    first.  [pending] scripts what the coming transfers return (a
    negative errno or the number of bytes transferred); once the script
    is used up a transfer is complete and returns its byte count. *)
Record i2c_bus : Type := mk_bus {
  sent : list (list Z);
  pending : list Z
}.

Record world : Type := mk_world {
  priv : mcp23009_data;
  adapter : i2c_bus
}.

Definition kernel : Type -> Type := state world.

Definition update_priv (f : mcp23009_data -> mcp23009_data) : kernel unit :=
  modify (fun w => mk_world (f (priv w)) (adapter w)) ;; ret tt.

Definition i2c_master_send (buf : list Z) (count : Z) : kernel Z :=
  w <- get ;;
  let b := adapter w in
  match pending b with
  | [] =>
      put (mk_world (priv w) (mk_bus (sent b ++ [buf]) [])) ;;
      ret count
  | r :: rest =>
      put (mk_world (priv w) (mk_bus (sent b ++ [buf]) rest)) ;;
      ret r
  end.

(** ** Value to bitmask translation and the IIO entry points *)

(** The data byte [outbuf[1]] of [mcp23009_set_value]. *)
Definition out_byte (val : Z) : Z :=
  if val =? 0 then 0 else to_u8 (Z.shiftl 1 (val - 1)).

Definition mcp23009_set_value (val : Z) : kernel Z :=
  if (val >? 8) || (val <? 0) then ret (- EINVAL)
  else
    r <- i2c_master_send [0x09; out_byte val] 2 ;;
    if r <? 0 then ret r
    else if negb (r =? 2) then ret (- EIO)
    else ret 0.

(** [mcp23009_read_raw]: the result pairs the return value with the
    content of [*val] after the call ([val0] before it). *)
Definition mcp23009_read_raw (val0 : Z) (mask : Z) : kernel (Z * Z) :=
  w <- get ;;
  let data := priv w in
  if mask =? IIO_CHAN_INFO_RAW then ret (IIO_VAL_INT, out_value data)
  else if mask =? IIO_CHAN_INFO_SCALE then ret (IIO_VAL_INT, 1)
  else ret (- EINVAL, val0).

(** [mcp23009_write_raw]: [val] is an [int] and [num_out] an
    [unsigned], so the upper comparison is done on [unsigned]. *)
Definition mcp23009_write_raw (val val2 : Z) (mask : Z) : kernel Z :=
  if mask =? IIO_CHAN_INFO_RAW then
    w <- get ;;
    if (val >=? 0) && (to_u32 val <=? num_out (priv w)) then
      r <- mcp23009_set_value val ;;
      update_priv (set_out_value (to_u8 val)) ;;
      ret r
    else ret (- EINVAL)
  else ret (- EINVAL).

(** The operations of the controller as the attaching subsystem
    invokes them. *)
Definition SetValue (channel : Z) : kernel Z :=
  mcp23009_write_raw channel 0 IIO_CHAN_INFO_RAW.
Definition ReadValue : kernel (Z * Z) :=
  mcp23009_read_raw 0 IIO_CHAN_INFO_RAW.
Definition ReadScale : kernel (Z * Z) :=
  mcp23009_read_raw 0 IIO_CHAN_INFO_SCALE.

(** ** Probing *)

(** What the surrounding kernel supplies to [mcp23009_probe]. *)
Record probe_env : Type := mk_env {
  alloc_ok : bool;              (* devm_iio_device_alloc did not return NULL *)
  CONFIG_OF : bool;
  of_node : option (option Z);  (* the device node and its "num-out" property *)
  of_match_data : Z;
  id_driver_data : Z;
  platdata : option Z;          (* dev_get_platdata: its num_out *)
  register_err : Z              (* iio_device_register *)
}.

(** [mcp23009_probe_dt]: an errno on the left, [pdata->num_out] on the
    right. *)
Definition mcp23009_probe_dt (env : probe_env) : Z + Z :=
  if CONFIG_OF env then
    match of_node env with
    | None => inl (- ENODEV)
    | Some (Some n) => inr n
    | Some None => inr 8
    end
  else inl (- ENODEV).

(** [pdata->num_out] after lines 182-192 of the probe routine. *)
Definition pdata_num_out (env : probe_env) : Z + Z :=
  match platdata env with
  | Some n => inr n
  | None => mcp23009_probe_dt env
  end.

(** [~((1UL << num_out) - 1) & 0xFF], stored in a [u8]. *)
Definition probe_inout_mask (n : Z) : Z :=
  to_u8 (Z.land (ulong_not (to_ulong (to_ulong (Z.shiftl 1 n) - 1))) 0xFF).

Definition mcp23009_probe (env : probe_env) : kernel Z :=
  if negb (alloc_ok env) then ret (- ENOMEM)
  else
    update_priv (fun _ => zeroed_data) ;;
    update_priv (set_id (match of_node env with
                         | Some _ => of_match_data env
                         | None => id_driver_data env
                         end)) ;;
    match pdata_num_out env with
    | inl err => ret err
    | inr n =>
        if n >? 8 then ret (- EINVAL)
        else
          update_priv (set_num_out n) ;;
          update_priv (set_inout_mask (probe_inout_mask n)) ;;
          w <- get ;;
          r <- i2c_master_send [0x00; inout_mask (priv w)] 2 ;;
          if (r <? 0) || negb (r =? 2) then ret (- EIO)
          else
            r <- i2c_master_send [0x06; 0xff] 2 ;;
            if (r <? 0) || negb (r =? 2) then ret (- EIO)
            else
              if negb (register_err env =? 0) then ret (register_err env)
              else ret 0
    end.

(** ** Requests served after a successful probe *)

Inductive request : Type :=
| WriteRaw (val val2 mask : Z)
| ReadRaw (val0 mask : Z).

Definition serve (rq : request) : kernel Z :=
  match rq with
  | WriteRaw val val2 mask => mcp23009_write_raw val val2 mask
  | ReadRaw val0 mask => r <- mcp23009_read_raw val0 mask ;; ret (fst r)
  end.

(** States the controller can be in after any number of requests; the
    transport may also change what its coming transfers will return. *)
Inductive reachable (w0 : world) : world -> Prop :=
| reach_init : reachable w0 w0
| reach_serve : forall w rq,
    reachable w0 w -> reachable w0 (snd (runState (serve rq) w))
| reach_transport : forall w script,
    reachable w0 w ->
    reachable w0 (mk_world (priv w) (mk_bus (sent (adapter w)) script)).

(** ** Auxiliary notions used in the statements *)

(** Number of bits set in a byte. *)
Definition bits_set (b : Z) : nat :=
  length (filter (fun i => Z.testbit b (Z.of_nat i)) (seq 0 8)).

(** The direction mask as the specification of the controller words
    it, on unbounded integers. *)
Definition spec_inout_mask (n : Z) : Z :=
  Z.land (Z.lnot (Z.shiftl 1 n - 1)) 0xFF.

(** What the next transfer of [count] bytes returns, and the adapter
    after a buffer has been handed to it. *)
Definition next_reply (count : Z) (b : i2c_bus) : Z :=
  match pending b with
  | [] => count
  | r :: _ => r
  end.

Definition bus_after (buf : list Z) (b : i2c_bus) : i2c_bus :=
  mk_bus (sent b ++ [buf]) (tl (pending b)).

(** A transfer outcome that is not a complete two-byte transfer. *)
Definition transfer_failed (r : Z) : Prop := r < 0 \/ r <> 2.

(** What [mcp23009_set_value] makes of the outcome of its transfer. *)
Definition set_value_result (r : Z) : Z :=
  if r <? 0 then r else if negb (r =? 2) then - EIO else 0.

(** Whether a transfer outcome makes the probe routine give up. *)
Definition probe_gives_up (r : Z) : bool := (r <? 0) || negb (r =? 2).

(** The private data the probe routine has filled in by the time it
    starts talking to the chip. *)
Definition probed_data (env : probe_env) (n : Z) : mcp23009_data :=
  mk_data (match of_node env with
           | Some _ => of_match_data env
           | None => id_driver_data env
           end) n 0 (probe_inout_mask n).

(** Every pin count the environment can supply fits its [unsigned]
    field. *)
Definition env_typed (env : probe_env) : bool :=
  match pdata_num_out env with
  | inr n => (0 <=? n) && (n <? 2 ^ 32)
  | inl _ => true
  end.

(** ** Sequences of requests and shapes of buffers *)

(** [SetValue] called for each channel of a list in turn. *)
Fixpoint set_values (cs : list Z) : kernel unit :=
  match cs with
  | [] => ret tt
  | c :: rest => SetValue c ;; set_values rest
  end.

(** The last channel of a list that lies within [0, n]; [v] when there
    is none. *)
Definition last_accepted (n v : Z) (cs : list Z) : Z :=
  fold_left (fun v c => if (0 <=? c) && (c <=? n) then c else v) cs v.


(** A two-byte buffer for the direction register [0x00], or the
    polarity register [0x06] with all bits set. *)
Definition config_frame (f : list Z) : bool :=
  match f with
  | [reg; b] => (reg =? 0x00) || ((reg =? 0x06) && (b =? 0xff))
  | _ => false
  end.

(** A two-byte buffer for the output register whose data byte shares
    no bit with [mask]. *)
Definition clear_of_mask (mask : Z) (f : list Z) : bool :=
  match f with
  | [reg; b] => (reg =? 0x09) && (Z.land b mask =? 0)
  | _ => false
  end.

(** The environment of a probe with its device node replaced. *)
Definition with_of_node (node : option (option Z)) (env : probe_env)
  : probe_env :=
  mk_env (alloc_ok env) (CONFIG_OF env) node (of_match_data env)
         (id_driver_data env) (platdata env) (register_err env).

(** The chip id the probe routine stores. *)
Definition probe_id (env : probe_env) : Z :=
  match of_node env with
  | Some _ => of_match_data env
  | None => id_driver_data env
  end.

(** ** Sanity checks on concrete runs *)

Definition w_ready (n v : Z) (script : list Z) : world :=
  mk_world (mk_data 0 n v (probe_inout_mask n)) (mk_bus [] script).

Definition env_platform (n : Z) : probe_env :=
  mk_env true true None 0 0 (Some n) 0.

Example probe_8_run :
  runState (mcp23009_probe (env_platform 8)) (w_ready 5 5 []) =
  (0, mk_world (mk_data 0 8 0 0) (mk_bus [[0x00; 0x00]; [0x06; 0xff]] [])).
Proof. reflexivity. Qed.

Example set_3_run :
  runState (SetValue 3) (w_ready 8 0 []) =
  (0, mk_world (mk_data 0 8 3 0) (mk_bus [[0x09; 0x04]] [])).
Proof. reflexivity. Qed.

Example probe_3_then_set_4 :
  runState (r <- mcp23009_probe (env_platform 3) ;;
            s <- SetValue 4 ;;
            v <- ReadValue ;;
            ret (r, s, v)) (w_ready 0 0 []) =
  ((0, - EINVAL, (IIO_VAL_INT, 0)),
   mk_world (mk_data 0 3 0 0xF8) (mk_bus [[0x00; 0xF8]; [0x06; 0xff]] [])).
Proof. reflexivity. Qed.

(** ** Running the driver functions *)

Lemma i2c_master_send_run buf count w :
  runState (i2c_master_send buf count) w =
  (next_reply count (adapter w), mk_world (priv w) (bus_after buf (adapter w))).
Proof.
  unfold i2c_master_send, next_reply, bus_after.
  destruct w as [d [s p]]; destruct p; reflexivity.
Qed.

Lemma bind_run {A B} (m : kernel A) (k : A -> kernel B) w :
  runState (x <- m ;; k x) w =
  runState (k (fst (runState m w))) (snd (runState m w)).
Proof. cbn. destruct (runState m w); reflexivity. Qed.

Lemma ret_run {A} (a : A) (w : world) : runState (ret a : kernel A) w = (a, w).
Proof. reflexivity. Qed.

Lemma update_priv_run f w :
  runState (update_priv f) w = (tt, mk_world (f (priv w)) (adapter w)).
Proof. reflexivity. Qed.

Lemma get_run (w : world) : runState (get : kernel world) w = (w, w).
Proof. reflexivity. Qed.

Ltac run_step :=
  repeat (rewrite bind_run
          || rewrite i2c_master_send_run
          || rewrite update_priv_run
          || rewrite get_run
          || rewrite ret_run
          || cbv beta iota
          || simpl fst || simpl snd).

Lemma small_u8 v : 0 <= v <= 8 -> to_u8 v = v.
Proof. intros H. unfold to_u8. apply Z.mod_small. lia. Qed.

Lemma small_u32 v : 0 <= v < 2 ^ 31 -> to_u32 v = v.
Proof. intros H. unfold to_u32. apply Z.mod_small. lia. Qed.

Lemma set_value_run val w :
  0 <= val <= 8 ->
  runState (mcp23009_set_value val) w =
  (set_value_result (next_reply 2 (adapter w)),
   mk_world (priv w) (bus_after [0x09; out_byte val] (adapter w))).
Proof.
  intros H. unfold mcp23009_set_value, set_value_result.
  replace (val >? 8) with false
    by (symmetry; rewrite Z.gtb_ltb; apply Z.ltb_ge; lia).
  replace (val <? 0) with false by (symmetry; apply Z.ltb_ge; lia).
  cbv [orb]. run_step.
  destruct (next_reply 2 (adapter w) <? 0); [reflexivity|].
  destruct (negb (next_reply 2 (adapter w) =? 2)); reflexivity.
Qed.

Lemma write_raw_in_range val val2 w :
  0 <= val <= num_out (priv w) -> num_out (priv w) <= 8 ->
  runState (mcp23009_write_raw val val2 IIO_CHAN_INFO_RAW) w =
  (set_value_result (next_reply 2 (adapter w)),
   mk_world (set_out_value val (priv w))
            (bus_after [0x09; out_byte val] (adapter w))).
Proof.
  intros Hv Hn. unfold mcp23009_write_raw.
  change (IIO_CHAN_INFO_RAW =? IIO_CHAN_INFO_RAW) with true. cbv iota.
  run_step.
  rewrite small_u32 by lia.
  replace (val >=? 0) with true by (symmetry; apply Z.geb_le; lia).
  replace (val <=? num_out (priv w)) with true by (symmetry; apply Z.leb_le; lia).
  cbv [andb]. run_step.
  rewrite set_value_run by lia. run_step.
  rewrite small_u8 by lia. reflexivity.
Qed.

Lemma write_raw_out_of_range val val2 w :
  int_range val -> val < 0 \/ num_out (priv w) < val ->
  runState (mcp23009_write_raw val val2 IIO_CHAN_INFO_RAW) w = (- EINVAL, w).
Proof.
  intros Hi Hv. unfold int_range in Hi. unfold mcp23009_write_raw.
  change (IIO_CHAN_INFO_RAW =? IIO_CHAN_INFO_RAW) with true. cbv iota.
  run_step.
  destruct (Z.geb_spec val 0) as [Hge|Hlt]; [|reflexivity].
  rewrite small_u32 by lia.
  replace (val <=? num_out (priv w)) with false by (symmetry; apply Z.leb_gt; lia).
  reflexivity.
Qed.

Lemma write_raw_other_mask val val2 mask w :
  mask <> IIO_CHAN_INFO_RAW ->
  runState (mcp23009_write_raw val val2 mask) w = (- EINVAL, w).
Proof.
  intros H. unfold mcp23009_write_raw.
  destruct (Z.eqb_spec mask IIO_CHAN_INFO_RAW); [contradiction | reflexivity].
Qed.

Lemma set_value_keeps_priv val w :
  priv (snd (runState (mcp23009_set_value val) w)) = priv w.
Proof.
  unfold mcp23009_set_value.
  destruct ((val >? 8) || (val <? 0)); [reflexivity|].
  run_step.
  destruct (next_reply 2 (adapter w) <? 0); [reflexivity|].
  destruct (negb (next_reply 2 (adapter w) =? 2)); reflexivity.
Qed.

Lemma transfer_failed_gives_up r : transfer_failed r <-> probe_gives_up r = true.
Proof.
  unfold transfer_failed, probe_gives_up.
  rewrite orb_true_iff, negb_true_iff, Z.ltb_lt, Z.eqb_neq. reflexivity.
Qed.

Lemma transfer_failed_result r : transfer_failed r -> set_value_result r < 0.
Proof.
  unfold transfer_failed, set_value_result, EIO. intros H.
  destruct (Z.ltb_spec r 0); [assumption|].
  destruct (Z.eqb_spec r 2); simpl; lia.
Qed.

Lemma transfer_complete_result r : r = 2 -> set_value_result r = 0.
Proof. intros ->. reflexivity. Qed.

Lemma probe_run env n w :
  alloc_ok env = true -> pdata_num_out env = inr n -> n <= 8 ->
  runState (mcp23009_probe env) w =
  let d := probed_data env n in
  let b1 := bus_after [0x00; probe_inout_mask n] (adapter w) in
  let b2 := bus_after [0x06; 0xff] b1 in
  if probe_gives_up (next_reply 2 (adapter w)) then (- EIO, mk_world d b1)
  else if probe_gives_up (next_reply 2 b1) then (- EIO, mk_world d b2)
  else (register_err env, mk_world d b2).
Proof.
  intros Ha Hp Hn. unfold mcp23009_probe. rewrite Ha, Hp.
  replace (n >? 8) with false
    by (symmetry; rewrite Z.gtb_ltb; apply Z.ltb_ge; lia).
  change (negb true) with false. cbv iota. run_step.
  fold (probe_gives_up (next_reply 2 (adapter w))).
  destruct (probe_gives_up (next_reply 2 (adapter w))); [reflexivity|].
  run_step.
  match goal with
  | |- context [ (?r <? 0) || negb (?r =? 2) ] =>
      fold (probe_gives_up r); destruct (probe_gives_up r)
  end; [reflexivity|].
  destruct (Z.eqb_spec (register_err env) 0) as [E|E]; simpl.
  - rewrite E. reflexivity.
  - reflexivity.
Qed.

Lemma probe_rejects env n w :
  alloc_ok env = true -> pdata_num_out env = inr n -> 8 < n ->
  runState (mcp23009_probe env) w =
  (- EINVAL,
   mk_world (set_id (match of_node env with
                     | Some _ => of_match_data env
                     | None => id_driver_data env
                     end) zeroed_data) (adapter w)).
Proof.
  intros Ha Hp Hn. unfold mcp23009_probe. rewrite Ha, Hp.
  replace (n >? 8) with true by (symmetry; apply Z.gtb_lt; lia).
  reflexivity.
Qed.

Lemma probe_success env w0 w1 :
  env_typed env = true ->
  runState (mcp23009_probe env) w0 = (0, w1) ->
  exists n, 0 <= n <= 8 /\ pdata_num_out env = inr n /\
            priv w1 = probed_data env n /\
            sent (adapter w1) =
            sent (adapter w0) ++ [[0x00; probe_inout_mask n]; [0x06; 0xff]].
Proof.
  unfold env_typed. intros Ht Hr.
  destruct (alloc_ok env) eqn:Ha.
  2:{ unfold mcp23009_probe in Hr. rewrite Ha in Hr. discriminate Hr. }
  destruct (pdata_num_out env) as [err|n] eqn:Hp.
  { unfold mcp23009_probe in Hr. rewrite Ha, Hp in Hr.
    unfold mcp23009_probe_dt, pdata_num_out in Hp.
    assert (err = - ENODEV) as ->.
    { destruct (platdata env); [discriminate|].
      unfold mcp23009_probe_dt in Hp.
      destruct (CONFIG_OF env); [|congruence].
      destruct (of_node env) as [[?|]|]; congruence. }
    discriminate Hr. }
  apply andb_true_iff in Ht. destruct Ht as [H0 _]. apply Z.leb_le in H0.
  destruct (Z.le_gt_cases n 8) as [Hle|Hgt].
  - rewrite (probe_run env n w0 Ha Hp Hle) in Hr. cbv zeta in Hr.
    destruct (probe_gives_up _); [discriminate Hr|].
    destruct (probe_gives_up _); [discriminate Hr|].
    injection Hr as _ <-. exists n. simpl.
    rewrite <- app_assoc. repeat split; assumption || lia || reflexivity.
  - rewrite (probe_rejects env n w0 Ha Hp Hgt) in Hr. discriminate Hr.
Qed.

Lemma out_byte_cases channel :
  0 <= channel <= 8 ->
  out_byte channel = (if channel =? 0 then 0 else Z.shiftl 1 (channel - 1)) /\
  0 <= out_byte channel < 256 /\
  (bits_set (out_byte channel) <= 1)%nat /\
  (1 <= channel -> bits_set (out_byte channel) = 1%nat).
Proof.
  intros H.
  assert (channel = 0 \/ channel = 1 \/ channel = 2 \/ channel = 3 \/
          channel = 4 \/ channel = 5 \/ channel = 6 \/ channel = 7 \/
          channel = 8) as Hc by lia.
  repeat (destruct Hc as [->|Hc]); try subst channel;
    (split; [reflexivity | split; [vm_compute; split; congruence | split;
       [vm_compute; lia | intros; try lia; reflexivity]]]).
Qed.

Lemma probe_inout_mask_cases n :
  0 <= n <= 8 ->
  probe_inout_mask n = spec_inout_mask n /\ probe_inout_mask n = 256 - 2 ^ n.
Proof.
  intros H.
  assert (n = 0 \/ n = 1 \/ n = 2 \/ n = 3 \/ n = 4 \/ n = 5 \/ n = 6 \/
          n = 7 \/ n = 8) as Hc by lia.
  repeat (destruct Hc as [->|Hc]); try subst n; split; reflexivity.
Qed.

Lemma u8_of_small_u32 val n :
  0 <= val -> to_u32 val <= n -> n <= 255 -> 0 <= to_u8 val <= n.
Proof.
  unfold to_u32, to_u8. intros H0 H1 H2.
  rewrite <- (Z.mod_mod_divide val (2 ^ 32) (2 ^ 8))
    by (exists (2 ^ 24); reflexivity).
  pose proof (Z.mod_pos_bound val (2 ^ 32) ltac:(lia)) as Hb.
  rewrite Z.mod_small; lia.
Qed.

Lemma write_raw_priv val val2 mask w :
  let w' := snd (runState (mcp23009_write_raw val val2 mask) w) in
  priv w' = priv w \/
  (0 <= val /\ to_u32 val <= num_out (priv w) /\
   priv w' = set_out_value (to_u8 val) (priv w)).
Proof.
  cbv zeta. unfold mcp23009_write_raw.
  destruct (mask =? IIO_CHAN_INFO_RAW); [|left; reflexivity].
  run_step.
  destruct (Z.geb_spec val 0) as [Hge|Hlt]; [|left; reflexivity].
  destruct (Z.leb_spec (to_u32 val) (num_out (priv w))) as [Hle|Hgt];
    [|left; reflexivity].
  right. cbv [andb]. run_step.
  pose proof (set_value_keeps_priv val w) as Hk.
  destruct (runState (mcp23009_set_value val) w) as [r s].
  simpl in Hk |- *. rewrite Hk.
  repeat split; assumption || lia.
Qed.

Lemma read_raw_run val0 mask w :
  runState (mcp23009_read_raw val0 mask) w =
  (if mask =? IIO_CHAN_INFO_RAW then (IIO_VAL_INT, out_value (priv w))
   else if mask =? IIO_CHAN_INFO_SCALE then (IIO_VAL_INT, 1)
   else (- EINVAL, val0), w).
Proof.
  unfold mcp23009_read_raw. run_step.
  destruct (mask =? IIO_CHAN_INFO_RAW); [reflexivity|].
  destruct (mask =? IIO_CHAN_INFO_SCALE); reflexivity.
Qed.

Lemma serve_keeps_invariant rq w n :
  num_out (priv w) = n -> n <= 8 -> 0 <= out_value (priv w) <= n ->
  let w' := snd (runState (serve rq) w) in
  num_out (priv w') = n /\ 0 <= out_value (priv w') <= n.
Proof.
  intros Hn H8 Hv. destruct rq as [val val2 mask | val0 mask]; unfold serve.
  - destruct (write_raw_priv val val2 mask w) as [E | (H0 & H1 & E)];
      cbv zeta; rewrite E.
    + split; assumption.
    + simpl. split; [assumption|].
      apply u8_of_small_u32; lia.
  - cbv zeta. rewrite bind_run, read_raw_run. simpl. split; assumption.
Qed.

(** ** Value setting *)

(** C1, evaluated on the driver.  The device is configured for eight
    outputs and holds [out_value = 0].  [SetValue 3] over a transport
    whose transfer fails (a negative status, or a short transfer of one
    byte) returns the failure to the caller, yet the stored value, as
    [ReadValue] reports it afterwards, is 3 and no longer the 0 it was
    before the call: [mcp23009_write_raw] stores [val] without looking
    at what [mcp23009_set_value] returned. *)
Theorem set_value_failed_transfer_still_stored :
  runState (SetValue 3) (w_ready 8 0 [- 6]) =
    (- 6, mk_world (mk_data 0 8 3 0) (mk_bus [[0x09; 0x04]] [])) /\
  runState (SetValue 3) (w_ready 8 0 [1]) =
    (- EIO, mk_world (mk_data 0 8 3 0) (mk_bus [[0x09; 0x04]] [])) /\
  fst (runState ReadValue (w_ready 8 0 [- 6])) = (IIO_VAL_INT, 0) /\
  fst (runState (SetValue 3 ;; ReadValue) (w_ready 8 0 [- 6])) =
    (IIO_VAL_INT, 3).
Proof. repeat split. Qed.

(** The same in general: for a channel in range the value is stored
    whatever the transfer returned, and a failed transfer is reported. *)
Lemma set_value_stores_whatever_the_transfer channel w :
  num_out (priv w) <= 8 -> 0 <= channel <= num_out (priv w) ->
  out_value (priv (snd (runState (SetValue channel) w))) = channel /\
  (transfer_failed (next_reply 2 (adapter w)) ->
   fst (runState (SetValue channel) w) < 0).
Proof.
  intros Hn Hc. unfold SetValue. rewrite write_raw_in_range by assumption.
  split; [reflexivity | apply transfer_failed_result].
Qed.

(** C2: for a channel in [1, num_out] [SetValue] hands exactly one
    buffer to the transport, the two bytes [0x09] and
    [1 << (channel - 1)]; for channel 0 the two bytes [0x09] and [0x00].
    The data byte never has more than one bit set, and exactly one for a
    channel other than 0. *)
Theorem set_value_writes_one_hot_frame channel w :
  num_out (priv w) <= 8 -> 0 <= channel <= num_out (priv w) ->
  let b := if channel =? 0 then 0 else Z.shiftl 1 (channel - 1) in
  sent (adapter (snd (runState (SetValue channel) w))) =
    sent (adapter w) ++ [[0x09; b]] /\
  (bits_set b <= 1)%nat /\
  (1 <= channel -> bits_set b = 1%nat).
Proof.
  intros Hn Hc. cbv zeta. unfold SetValue.
  rewrite write_raw_in_range by assumption.
  destruct (out_byte_cases channel ltac:(lia)) as (E & _ & H1 & H2).
  rewrite <- E. simpl. auto.
Qed.

Lemma set_value_writes_one_hot_frame_witness :
  num_out (priv (w_ready 8 0 [])) <= 8 /\
  0 <= 8 <= num_out (priv (w_ready 8 0 [])) /\
  sent (adapter (snd (runState (SetValue 8) (w_ready 8 0 [])))) =
    [[0x09; 0x80]].
Proof.
  split; [simpl; lia | split; [simpl; lia |]].
  apply (proj1 (set_value_writes_one_hot_frame 8 (w_ready 8 0 [])
                  ltac:(simpl; lia) ltac:(simpl; lia))).
Defined.

(** C4: for an [int] channel below 0 or above [num_out], [SetValue]
    returns [-EINVAL] and leaves the whole state as it was: nothing is
    handed to the transport and [ReadValue] reports what it reported
    before. *)
Theorem set_value_out_of_range channel w :
  int_range channel -> channel < 0 \/ num_out (priv w) < channel ->
  runState (SetValue channel) w = (- EINVAL, w) /\
  sent (adapter (snd (runState (SetValue channel) w))) = sent (adapter w) /\
  fst (runState ReadValue (snd (runState (SetValue channel) w))) =
    fst (runState ReadValue w).
Proof.
  intros Hi Hc. unfold SetValue.
  rewrite write_raw_out_of_range by assumption. repeat split.
Qed.

Lemma set_value_out_of_range_witness :
  int_range 4 /\
  (4 < 0 \/ num_out (priv (w_ready 3 2 [])) < 4) /\
  runState (SetValue 4) (w_ready 3 2 []) = (- EINVAL, w_ready 3 2 []).
Proof.
  assert (Hi : int_range 4) by (unfold int_range; lia).
  assert (Hc : 4 < 0 \/ num_out (priv (w_ready 3 2 [])) < 4)
    by (right; simpl; lia).
  split; [exact Hi | split; [exact Hc |]].
  apply (proj1 (set_value_out_of_range 4 (w_ready 3 2 []) Hi Hc)).
Defined.

(** C9: for a channel in [0, num_out], two calls of [SetValue] in a row
    hand two identical two-byte buffers to the transport, and
    [ReadValue] reports the same value, the channel, after the second
    call as after the first.  When both transfers complete both calls
    return 0. *)
Theorem set_value_twice channel w :
  num_out (priv w) <= 8 -> 0 <= channel <= num_out (priv w) ->
  let r1 := runState (SetValue channel) w in
  let r2 := runState (SetValue channel) (snd r1) in
  sent (adapter (snd r2)) =
    sent (adapter w) ++ [[0x09; out_byte channel]; [0x09; out_byte channel]] /\
  fst (runState ReadValue (snd r2)) = fst (runState ReadValue (snd r1)) /\
  fst (runState ReadValue (snd r1)) = (IIO_VAL_INT, channel) /\
  (next_reply 2 (adapter w) = 2 -> next_reply 2 (adapter (snd r1)) = 2 ->
   fst r1 = 0 /\ fst r2 = 0).
Proof.
  intros Hn Hc. cbv zeta. unfold SetValue.
  rewrite (write_raw_in_range channel 0 w) by assumption.
  cbn [snd fst].
  rewrite write_raw_in_range by (simpl; assumption).
  cbn [snd fst priv adapter bus_after sent].
  rewrite <- app_assoc. unfold ReadValue. rewrite !read_raw_run.
  split; [reflexivity | split; [reflexivity | split; [reflexivity |]]].
  cbn [tl pending]. intros E1 E2. rewrite E1.
  split; [reflexivity |].
  unfold next_reply in *. cbn [pending] in *. rewrite E2. reflexivity.
Qed.

Lemma set_value_twice_witness :
  num_out (priv (w_ready 8 0 [2; 2])) <= 8 /\
  0 <= 5 <= num_out (priv (w_ready 8 0 [2; 2])) /\
  sent (adapter (snd (runState (SetValue 5)
                        (snd (runState (SetValue 5) (w_ready 8 0 [2; 2])))))) =
    [[0x09; 0x10]; [0x09; 0x10]].
Proof.
  split; [simpl; lia | split; [simpl; lia |]].
  apply (proj1 (set_value_twice 5 (w_ready 8 0 [2; 2])
                  ltac:(simpl; lia) ltac:(simpl; lia))).
Defined.

(** ** Reading *)

(** C8: the raw selector makes the read entry point report the stored
    [out_value], the scale selector the constant 1; in both cases the
    whole state, private data and transport, is what it was before. *)
Theorem read_value_and_scale_pure val0 w :
  runState (mcp23009_read_raw val0 IIO_CHAN_INFO_RAW) w =
    ((IIO_VAL_INT, out_value (priv w)), w) /\
  runState (mcp23009_read_raw val0 IIO_CHAN_INFO_SCALE) w =
    ((IIO_VAL_INT, 1), w) /\
  runState ReadValue w = ((IIO_VAL_INT, out_value (priv w)), w) /\
  runState ReadScale w = ((IIO_VAL_INT, 1), w).
Proof. unfold ReadValue, ReadScale. rewrite !read_raw_run. repeat split. Qed.

(** C10: with a selector other than the raw value the write entry
    point returns [-EINVAL] and leaves the whole state as it was; with a
    selector other than raw value and scale the read entry point
    returns [-EINVAL], touching neither [*val] nor the state. *)
Theorem other_selectors_rejected val val2 val0 mask w :
  mask <> IIO_CHAN_INFO_RAW ->
  runState (mcp23009_write_raw val val2 mask) w = (- EINVAL, w) /\
  (mask <> IIO_CHAN_INFO_SCALE ->
   runState (mcp23009_read_raw val0 mask) w = ((- EINVAL, val0), w)).
Proof.
  intros Hr. split.
  - apply write_raw_other_mask. assumption.
  - intros Hs. rewrite read_raw_run.
    destruct (Z.eqb_spec mask IIO_CHAN_INFO_RAW); [contradiction|].
    destruct (Z.eqb_spec mask IIO_CHAN_INFO_SCALE); [contradiction|].
    reflexivity.
Qed.

Lemma other_selectors_rejected_witness :
  1 <> IIO_CHAN_INFO_RAW /\
  runState (mcp23009_write_raw 3 0 1) (w_ready 8 0 []) =
    (- EINVAL, w_ready 8 0 []) /\
  runState (mcp23009_read_raw 7 1) (w_ready 8 0 []) =
    ((- EINVAL, 7), w_ready 8 0 []).
Proof.
  assert (Hr : 1 <> IIO_CHAN_INFO_RAW) by (unfold IIO_CHAN_INFO_RAW; lia).
  assert (Hs : 1 <> IIO_CHAN_INFO_SCALE) by (unfold IIO_CHAN_INFO_SCALE; lia).
  split; [exact Hr |].
  destruct (other_selectors_rejected 3 0 7 1 (w_ready 8 0 []) Hr) as [Hw Hd].
  split; [exact Hw | exact (Hd Hs)].
Defined.

(** ** Probing *)

(** C3: for a pin count in [0, 8] the probe routine stores
    [(~((1 << num_out) - 1)) & 0xFF] in [inout_mask], an eight-bit
    value; for 0, 3, 5 and 8 pins it is [0xFF], [0xF8], [0xE0] and
    [0x00]. *)
Theorem probe_computes_inout_mask env n w :
  alloc_ok env = true -> pdata_num_out env = inr n -> 0 <= n <= 8 ->
  inout_mask (priv (snd (runState (mcp23009_probe env) w))) =
    spec_inout_mask n /\
  0 <= spec_inout_mask n < 256 /\
  probe_inout_mask 0 = 0xFF /\ probe_inout_mask 3 = 0xF8 /\
  probe_inout_mask 5 = 0xE0 /\ probe_inout_mask 8 = 0x00.
Proof.
  intros Ha Hp Hn.
  destruct (probe_inout_mask_cases n Hn) as [Es Ep].
  rewrite (probe_run env n w Ha Hp) by lia. cbv zeta.
  assert (0 < 2 ^ n <= 2 ^ 8) as Hpow.
  { split; [apply Z.pow_pos_nonneg; lia | apply Z.pow_le_mono_r; lia]. }
  split.
  - destruct (probe_gives_up _); [exact Es|].
    destruct (probe_gives_up _); exact Es.
  - rewrite <- Es, Ep. repeat split; lia.
Qed.

Lemma probe_computes_inout_mask_witness :
  alloc_ok (env_platform 5) = true /\
  pdata_num_out (env_platform 5) = inr 5 /\
  0 <= 5 <= 8 /\
  inout_mask (priv (snd (runState (mcp23009_probe (env_platform 5))
                            (w_ready 0 0 [])))) = spec_inout_mask 5.
Proof.
  split; [reflexivity | split; [reflexivity | split; [lia |]]].
  apply (proj1 (probe_computes_inout_mask (env_platform 5) 5 (w_ready 0 0 [])
                  eq_refl eq_refl ltac:(lia))).
Defined.

(** C5: for a pin count above 8 the probe routine returns [-EINVAL]
    and the transport is what it was before: nothing has been handed to
    it and no transfer outcome has been consumed. *)
Theorem probe_rejects_large_num_out env n w :
  alloc_ok env = true -> pdata_num_out env = inr n -> 8 < n ->
  fst (runState (mcp23009_probe env) w) = - EINVAL /\
  sent (adapter (snd (runState (mcp23009_probe env) w))) = sent (adapter w) /\
  adapter (snd (runState (mcp23009_probe env) w)) = adapter w.
Proof.
  intros Ha Hp Hn. rewrite (probe_rejects env n w Ha Hp Hn). repeat split.
Qed.

Lemma probe_rejects_large_num_out_witness :
  alloc_ok (env_platform 9) = true /\
  pdata_num_out (env_platform 9) = inr 9 /\
  8 < 9 /\
  fst (runState (mcp23009_probe (env_platform 9)) (w_ready 0 0 [])) = - EINVAL.
Proof.
  split; [reflexivity | split; [reflexivity | split; [lia |]]].
  apply (proj1 (probe_rejects_large_num_out (env_platform 9) 9 (w_ready 0 0 [])
                  eq_refl eq_refl ltac:(lia))).
Defined.

(** C6: for a pin count in [0, 8], a probe that returns 0 has handed
    exactly two two-byte buffers to the transport, [0x00, inout_mask]
    and then [0x06, 0xFF].  When the first transfer returns a negative
    status or a count other than 2 the probe returns [-EIO] and the
    second buffer is never sent; when the second transfer does, the
    probe returns [-EIO] as well.  When both complete, the result is
    that of the device registration. *)
Theorem probe_configuration_writes env n w :
  alloc_ok env = true -> pdata_num_out env = inr n -> 0 <= n <= 8 ->
  let f1 := [0x00; probe_inout_mask n] in
  let f2 := [0x06; 0xff] in
  let r1 := next_reply 2 (adapter w) in
  let r2 := next_reply 2 (bus_after f1 (adapter w)) in
  let res := runState (mcp23009_probe env) w in
  (fst res = 0 -> sent (adapter (snd res)) = sent (adapter w) ++ [f1; f2]) /\
  (transfer_failed r1 ->
   fst res = - EIO /\ sent (adapter (snd res)) = sent (adapter w) ++ [f1]) /\
  (r1 = 2 -> transfer_failed r2 ->
   fst res = - EIO /\
   sent (adapter (snd res)) = sent (adapter w) ++ [f1; f2]) /\
  (r1 = 2 -> r2 = 2 ->
   fst res = register_err env /\
   sent (adapter (snd res)) = sent (adapter w) ++ [f1; f2]).
Proof.
  intros Ha Hp Hn. cbv zeta.
  rewrite (probe_run env n w Ha Hp) by lia. cbv zeta.
  destruct (probe_gives_up (next_reply 2 (adapter w))) eqn:G1.
  - apply transfer_failed_gives_up in G1. unfold transfer_failed in G1.
    cbn [fst snd adapter bus_after sent].
    split; [discriminate | split; [intros _; split; reflexivity |]].
    split; intros E; lia.
  - assert (~ transfer_failed (next_reply 2 (adapter w))) as N1.
    { rewrite transfer_failed_gives_up, G1. discriminate. }
    match goal with
    | |- context [ probe_gives_up ?r ] => destruct (probe_gives_up r) eqn:G2
    end.
    + apply transfer_failed_gives_up in G2. unfold transfer_failed in G2.
      cbn [fst snd adapter bus_after sent]. rewrite <- app_assoc.
      split; [discriminate | split; [intros F; contradiction |]].
      split; [intros _ _; split; reflexivity | intros _ E; lia].
    + cbn [fst snd adapter bus_after sent]. rewrite <- app_assoc.
      split; [reflexivity | split; [intros F; contradiction |]].
      split; [| intros _ _; split; reflexivity].
      intros _ F. apply transfer_failed_gives_up in F.
      rewrite G2 in F. discriminate F.
Qed.

Lemma probe_configuration_writes_witness :
  alloc_ok (env_platform 3) = true /\
  pdata_num_out (env_platform 3) = inr 3 /\
  0 <= 3 <= 8 /\
  (fst (runState (mcp23009_probe (env_platform 3)) (w_ready 0 0 [1; 2])) =
     - EIO /\
   sent (adapter (snd (runState (mcp23009_probe (env_platform 3))
                         (w_ready 0 0 [1; 2])))) = [[0x00; 0xF8]]).
Proof.
  split; [reflexivity | split; [reflexivity | split; [lia |]]].
  apply (proj1 (proj2 (probe_configuration_writes (env_platform 3) 3
                         (w_ready 0 0 [1; 2]) eq_refl eq_refl ltac:(lia)))).
  right. vm_compute. discriminate.
Defined.

(** C7: after a probe that returned 0 the stored [out_value] is 0, and
    in every state reachable from there by write and read requests (of
    any value and any selector, over any behaviour of the transport)
    [0 <= out_value <= num_out] holds. *)
Theorem out_value_within_num_out env w0 w1 :
  env_typed env = true ->
  runState (mcp23009_probe env) w0 = (0, w1) ->
  out_value (priv w1) = 0 /\
  forall w, reachable w1 w -> 0 <= out_value (priv w) <= num_out (priv w).
Proof.
  intros Ht Hr.
  destruct (probe_success env w0 w1 Ht Hr) as (n & Hn & _ & Hd & _).
  split; [rewrite Hd; reflexivity|].
  assert (forall w, reachable w1 w ->
            num_out (priv w) = n /\ 0 <= out_value (priv w) <= n) as Inv.
  { induction 1 as [| w rq _ [IHn IHv] | w script _ IH].
    - rewrite Hd. simpl. lia.
    - apply serve_keeps_invariant; assumption || lia.
    - exact IH. }
  intros w Hw. destruct (Inv w Hw) as [E Hv]. rewrite E. exact Hv.
Qed.

Lemma out_value_within_num_out_witness :
  env_typed (env_platform 8) = true /\
  runState (mcp23009_probe (env_platform 8)) (w_ready 0 0 []) =
    (0, mk_world (mk_data 0 8 0 0) (mk_bus [[0x00; 0x00]; [0x06; 0xff]] [])) /\
  out_value (mk_data 0 8 0 0) = 0 /\
  0 <= 3 <= 8.
Proof.
  split; [reflexivity | split; [reflexivity |]].
  pose proof (out_value_within_num_out (env_platform 8) (w_ready 0 0 [])
                (mk_world (mk_data 0 8 0 0)
                          (mk_bus [[0x00; 0x00]; [0x06; 0xff]] []))
                eq_refl eq_refl) as [H0 Hinv].
  split; [exact H0 |].
  exact (Hinv _ (reach_serve _ _ (WriteRaw 3 0 IIO_CHAN_INFO_RAW)
                   (reach_init _))).
Defined.

(** ** Further properties of the value-setting path *)

Lemma set_value_run_any val w :
  runState (mcp23009_set_value val) w =
  if (val >? 8) || (val <? 0) then (- EINVAL, w)
  else (set_value_result (next_reply 2 (adapter w)),
        mk_world (priv w) (bus_after [0x09; out_byte val] (adapter w))).
Proof.
  destruct ((val >? 8) || (val <? 0)) eqn:G.
  - unfold mcp23009_set_value. rewrite G. reflexivity.
  - apply orb_false_iff in G. destruct G as [G1 G2].
    rewrite Z.gtb_ltb in G1. apply Z.ltb_ge in G1. apply Z.ltb_ge in G2.
    apply set_value_run. lia.
Qed.

Lemma write_raw_run_any val val2 mask w :
  runState (mcp23009_write_raw val val2 mask) w =
  if mask =? IIO_CHAN_INFO_RAW then
    if (val >=? 0) && (to_u32 val <=? num_out (priv w)) then
      if (val >? 8) || (val <? 0) then
        (- EINVAL, mk_world (set_out_value (to_u8 val) (priv w)) (adapter w))
      else
        (set_value_result (next_reply 2 (adapter w)),
         mk_world (set_out_value (to_u8 val) (priv w))
                  (bus_after [0x09; out_byte val] (adapter w)))
    else (- EINVAL, w)
  else (- EINVAL, w).
Proof.
  unfold mcp23009_write_raw.
  destruct (mask =? IIO_CHAN_INFO_RAW); [|reflexivity].
  rewrite bind_run, get_run. cbn [fst snd].
  destruct ((val >=? 0) && (to_u32 val <=? num_out (priv w))); [|reflexivity].
  rewrite bind_run, set_value_run_any.
  destruct ((val >? 8) || (val <? 0)); reflexivity.
Qed.

Lemma set_value_result_nonpos r : set_value_result r <= 0.
Proof.
  unfold set_value_result, EIO.
  destruct (Z.ltb_spec r 0); [lia|].
  destruct (r =? 2); simpl; lia.
Qed.

Lemma set_value_result_zero r : set_value_result r = 0 <-> r = 2.
Proof.
  unfold set_value_result, EIO. split.
  - destruct (Z.ltb_spec r 0); [lia|].
    destruct (Z.eqb_spec r 2); simpl; [auto | discriminate].
  - intros ->. reflexivity.
Qed.

(** X1: [mcp23009_set_value] has a guard of its own: a value below 0
    or above 8 is refused with [-EINVAL] before anything is handed to
    the transport, and the whole state stays as it was. *)
Theorem set_value_own_guard val w :
  val < 0 \/ 8 < val ->
  runState (mcp23009_set_value val) w = (- EINVAL, w).
Proof.
  intros H. rewrite set_value_run_any.
  destruct (Z.gtb_spec val 8); [reflexivity|].
  destruct (Z.ltb_spec val 0); [reflexivity | lia].
Qed.

Lemma set_value_own_guard_witness :
  (9 < 0 \/ 8 < 9) /\
  runState (mcp23009_set_value 9) (w_ready 8 0 []) = (- EINVAL, w_ready 8 0 []).
Proof.
  assert (H : 9 < 0 \/ 8 < 9) by (right; lia).
  split; [exact H | exact (set_value_own_guard 9 (w_ready 8 0 []) H)].
Defined.

(** X2: for a value in [0, 8], [mcp23009_set_value] returns 0 exactly
    when the transfer returned 2; a negative status of the transport is
    passed on as it is, any other count becomes [-EIO]; the private
    data is never touched. *)
Theorem set_value_status val w :
  0 <= val <= 8 ->
  let r := next_reply 2 (adapter w) in
  let res := runState (mcp23009_set_value val) w in
  (fst res = 0 <-> r = 2) /\
  (r < 0 -> fst res = r) /\
  (0 <= r -> r <> 2 -> fst res = - EIO) /\
  priv (snd res) = priv w.
Proof.
  intros H. cbv zeta. rewrite set_value_run by assumption. cbn [fst snd priv].
  split; [apply set_value_result_zero|].
  unfold set_value_result.
  split; [|split; [|reflexivity]].
  - intros Hr. destruct (Z.ltb_spec (next_reply 2 (adapter w)) 0); [reflexivity | lia].
  - intros H0 H2.
    destruct (Z.ltb_spec (next_reply 2 (adapter w)) 0); [lia|].
    destruct (Z.eqb_spec (next_reply 2 (adapter w)) 2); [contradiction | reflexivity].
Qed.

Lemma set_value_status_witness :
  0 <= 4 <= 8 /\
  fst (runState (mcp23009_set_value 4) (w_ready 8 0 [- 121])) = - 121.
Proof.
  assert (H : 0 <= 4 <= 8) by lia.
  split; [exact H |].
  apply (proj1 (proj2 (set_value_status 4 (w_ready 8 0 [- 121]) H))).
  vm_compute. reflexivity.
Defined.

(** X3: the write entry point never returns a positive number, also
    when the transport reports a positive short count; and when it
    returns 0 the selector was the raw value, the value lay in [0, 8],
    the transfer returned 2 and exactly the one buffer for register
    [0x09] was handed to the transport. *)
Theorem write_raw_result val val2 mask w :
  let res := runState (mcp23009_write_raw val val2 mask) w in
  fst res <= 0 /\
  (fst res = 0 ->
   mask = IIO_CHAN_INFO_RAW /\ 0 <= val <= 8 /\
   next_reply 2 (adapter w) = 2 /\
   sent (adapter (snd res)) = sent (adapter w) ++ [[0x09; out_byte val]]).
Proof.
  cbv zeta. rewrite write_raw_run_any. unfold EINVAL.
  destruct (Z.eqb_spec mask IIO_CHAN_INFO_RAW) as [Em|Em];
    [| cbn [fst]; split; [lia | discriminate]].
  destruct ((val >=? 0) && (to_u32 val <=? num_out (priv w)));
    [| cbn [fst]; split; [lia | discriminate]].
  destruct ((val >? 8) || (val <? 0)) eqn:G;
    [cbn [fst]; split; [lia | discriminate] |].
  apply orb_false_iff in G. destruct G as [G1 G2].
  rewrite Z.gtb_ltb in G1. apply Z.ltb_ge in G1. apply Z.ltb_ge in G2.
  cbn [fst snd adapter bus_after sent].
  split; [apply set_value_result_nonpos|].
  intros E. apply set_value_result_zero in E.
  repeat split; assumption || lia.
Qed.

Lemma write_raw_result_witness :
  fst (runState (mcp23009_write_raw 2 0 IIO_CHAN_INFO_RAW) (w_ready 8 0 [])) = 0 /\
  sent (adapter (snd (runState (mcp23009_write_raw 2 0 IIO_CHAN_INFO_RAW)
                               (w_ready 8 0 [])))) = [] ++ [[0x09; out_byte 2]].
Proof.
  assert (E : fst (runState (mcp23009_write_raw 2 0 IIO_CHAN_INFO_RAW)
                            (w_ready 8 0 [])) = 0) by reflexivity.
  split; [exact E |].
  exact (proj2 (proj2 (proj2
           (proj2 (write_raw_result 2 0 IIO_CHAN_INFO_RAW (w_ready 8 0 [])) E)))).
Defined.

(** ** Sequences of requests *)


Lemma serve_step_shape rq w :
  let w' := snd (runState (serve rq) w) in
  id (priv w') = id (priv w) /\
  num_out (priv w') = num_out (priv w) /\
  inout_mask (priv w') = inout_mask (priv w) /\
  (sent (adapter w') = sent (adapter w) \/
   exists val, 0 <= val <= 8 /\ to_u32 val <= num_out (priv w) /\
               sent (adapter w') = sent (adapter w) ++ [[0x09; out_byte val]]).
Proof.
  cbv zeta. destruct rq as [val val2 mask | val0 mask]; unfold serve.
  - rewrite write_raw_run_any.
    destruct (mask =? IIO_CHAN_INFO_RAW); [|cbn [snd]; auto].
    destruct (Z.geb_spec val 0) as [Hge|Hlt]; [|cbn [snd]; auto].
    destruct (Z.leb_spec (to_u32 val) (num_out (priv w))) as [Hle|Hgt];
      [|cbn [snd]; auto].
    cbn [andb].
    destruct ((val >? 8) || (val <? 0)) eqn:G; cbn [snd priv adapter];
      [simpl; auto |].
    apply orb_false_iff in G. destruct G as [G1 G2].
    rewrite Z.gtb_ltb in G1. apply Z.ltb_ge in G1.
    simpl. repeat split. right. exists val. repeat split; assumption || lia.
  - rewrite bind_run, read_raw_run. cbn [fst snd]. rewrite ret_run.
    cbn [snd]. auto.
Qed.

(** X4: the configuration is fixed once the device is set up: in every
    state reachable by write and read requests the chip id, the number
    of outputs and the direction mask are what they were at the start. *)
Theorem requests_keep_configuration w0 w :
  reachable w0 w ->
  id (priv w) = id (priv w0) /\
  num_out (priv w) = num_out (priv w0) /\
  inout_mask (priv w) = inout_mask (priv w0).
Proof.
  induction 1 as [| w rq _ (I1 & I2 & I3) | w script _ IH].
  - auto.
  - destruct (serve_step_shape rq w) as (E1 & E2 & E3 & _).
    rewrite E1, E2, E3. auto.
  - exact IH.
Qed.

Lemma requests_keep_configuration_witness :
  reachable (w_ready 5 0 [])
            (snd (runState (serve (WriteRaw 4 0 IIO_CHAN_INFO_RAW))
                           (w_ready 5 0 []))) /\
  num_out (priv (snd (runState (serve (WriteRaw 4 0 IIO_CHAN_INFO_RAW))
                               (w_ready 5 0 [])))) = 5.
Proof.
  assert (R : reachable (w_ready 5 0 [])
                (snd (runState (serve (WriteRaw 4 0 IIO_CHAN_INFO_RAW))
                               (w_ready 5 0 []))))
    by (apply reach_serve, reach_init).
  split; [exact R |].
  exact (proj1 (proj2 (requests_keep_configuration _ _ R))).
Defined.



Lemma set_values_run cs : forall w,
  num_out (priv w) <= 8 -> Forall int_range cs ->
  let w' := snd (runState (set_values cs) w) in
  num_out (priv w') = num_out (priv w) /\
  out_value (priv w') =
    last_accepted (num_out (priv w)) (out_value (priv w)) cs.
Proof.
  induction cs as [|c rest IH]; intros w Hn Hcs; cbv zeta.
  - split; reflexivity.
  - inversion Hcs as [|c' rest' Hc Hrest]; subst.
    cbn [set_values]. rewrite bind_run. unfold last_accepted. cbn [fold_left].
    fold (last_accepted (num_out (priv w))
            (if (0 <=? c) && (c <=? num_out (priv w)) then c
             else out_value (priv w)) rest).
    destruct (Z.leb_spec 0 c) as [H0|H0];
      [destruct (Z.leb_spec c (num_out (priv w))) as [H1|H1] |]; cbn [andb].
    + unfold SetValue. rewrite write_raw_in_range by lia. cbn [snd].
      specialize (IH (mk_world (set_out_value c (priv w))
                        (bus_after [0x09; out_byte c] (adapter w)))
                     Hn Hrest).
      exact IH.
    + unfold SetValue. rewrite write_raw_out_of_range by (assumption || lia).
      cbn [snd]. exact (IH w Hn Hrest).
    + unfold SetValue. rewrite write_raw_out_of_range by (assumption || lia).
      cbn [snd]. exact (IH w Hn Hrest).
Qed.

(** X6: after any list of [SetValue] calls with [int] arguments,
    [ReadValue] reports the last channel of the list that lay within
    [0, num_out], and the value stored before when there was none;
    refused calls in between leave no trace, and whether the transfers
    went through plays no part. *)
Theorem read_value_after_set_values cs w :
  num_out (priv w) <= 8 -> Forall int_range cs ->
  fst (runState (set_values cs ;; ReadValue) w) =
  (IIO_VAL_INT, last_accepted (num_out (priv w)) (out_value (priv w)) cs).
Proof.
  intros Hn Hcs. rewrite bind_run. unfold ReadValue. rewrite read_raw_run.
  cbn [fst]. change (IIO_CHAN_INFO_RAW =? IIO_CHAN_INFO_RAW) with true.
  cbv iota. f_equal. apply set_values_run; assumption.
Qed.

Lemma read_value_after_set_values_witness :
  num_out (priv (w_ready 4 1 [- 5])) <= 8 /\
  Forall int_range [3; 7; - 1; 2; 5] /\
  fst (runState (set_values [3; 7; - 1; 2; 5] ;; ReadValue)
                (w_ready 4 1 [- 5])) = (IIO_VAL_INT, 2).
Proof.
  assert (Hn : num_out (priv (w_ready 4 1 [- 5])) <= 8) by (simpl; lia).
  assert (Hcs : Forall int_range [3; 7; - 1; 2; 5])
    by (repeat constructor; unfold int_range; lia).
  split; [exact Hn | split; [exact Hcs |]].
  exact (read_value_after_set_values [3; 7; - 1; 2; 5] (w_ready 4 1 [- 5])
           Hn Hcs).
Defined.

(** ** Bits of the direction mask and of the output byte *)

Ltac enum9 x :=
  let H := fresh "Hc" in
  assert (x = 0 \/ x = 1 \/ x = 2 \/ x = 3 \/ x = 4 \/ x = 5 \/ x = 6 \/
          x = 7 \/ x = 8) as H by lia;
  repeat (destruct H as [->|H]); try subst x.

Lemma out_byte_pow2 c : 1 <= c <= 8 -> out_byte c = 2 ^ (c - 1).
Proof. intros H. enum9 c; try lia; reflexivity. Qed.

Lemma out_byte_clear_of_mask n c :
  0 <= n <= 8 -> 0 <= c <= n ->
  clear_of_mask (probe_inout_mask n) [0x09; out_byte c] = true.
Proof. intros Hn Hc. enum9 n; enum9 c; first [reflexivity | lia]. Qed.

(** X7: the direction mask computed for [n] outputs, [0 <= n <= 8],
    has bit [i] of the byte clear for the [n] lowest pins and set for
    the pins from [n] up. *)
Theorem inout_mask_bits n i :
  0 <= n <= 8 -> 0 <= i < 8 ->
  Z.testbit (probe_inout_mask n) i = (n <=? i).
Proof.
  intros Hn Hi. enum9 n; enum9 i; first [reflexivity | lia].
Qed.

Lemma inout_mask_bits_witness :
  0 <= 3 <= 8 /\ 0 <= 2 < 8 /\ Z.testbit (probe_inout_mask 3) 2 = false.
Proof.
  assert (Hn : 0 <= 3 <= 8) by lia.
  assert (Hi : 0 <= 2 < 8) by lia.
  split; [exact Hn | split; [exact Hi |]].
  exact (inout_mask_bits 3 2 Hn Hi).
Defined.

(** X8: for a device set up with [n] outputs and a channel in [1, n],
    the byte written to the output register has bit [channel - 1] set
    and no other, and that bit is clear in the direction mask: the
    byte and the mask share no bit.  For channel 0 the byte is 0. *)
Theorem out_byte_selects_configured_output n c :
  0 <= n <= 8 -> 0 <= c <= n ->
  (forall i, 0 <= i -> Z.testbit (out_byte c) i = (1 <=? c) && (i =? c - 1)) /\
  (1 <= c -> Z.testbit (probe_inout_mask n) (c - 1) = false) /\
  Z.land (out_byte c) (probe_inout_mask n) = 0.
Proof.
  intros Hn Hc. split; [|split].
  - intros i Hi. destruct (Z.leb_spec 1 c) as [H1|H1]; cbn [andb].
    + rewrite out_byte_pow2 by lia.
      rewrite Z.pow2_bits_eqb by lia. apply Z.eqb_sym.
    + assert (c = 0) as -> by lia. apply Z.testbit_0_l.
  - intros H1. rewrite inout_mask_bits by lia. apply Z.leb_gt. lia.
  - pose proof (out_byte_clear_of_mask n c Hn Hc) as H.
    unfold clear_of_mask in H. rewrite Z.eqb_refl in H. cbn [andb] in H.
    apply Z.eqb_eq. exact H.
Qed.

Lemma out_byte_selects_configured_output_witness :
  0 <= 5 <= 8 /\ 0 <= 5 <= 5 /\
  Z.land (out_byte 5) (probe_inout_mask 5) = 0.
Proof.
  assert (Hn : 0 <= 5 <= 8) by lia.
  assert (Hc : 0 <= 5 <= 5) by lia.
  split; [exact Hn | split; [exact Hc |]].
  exact (proj2 (proj2 (out_byte_selects_configured_output 5 5 Hn Hc))).
Defined.

(** X9: on [0, 8] the translation of a value into the output byte is
    one to one: two values that give the same byte are the same
    value. *)
Theorem out_byte_injective c1 c2 :
  0 <= c1 <= 8 -> 0 <= c2 <= 8 -> out_byte c1 = out_byte c2 -> c1 = c2.
Proof.
  intros H1 H2 E. enum9 c1; enum9 c2;
    first [reflexivity | lia | (vm_compute in E; discriminate E)].
Qed.

Lemma out_byte_injective_witness :
  0 <= 6 <= 8 /\ 0 <= 2 * 3 <= 8 /\ out_byte 6 = out_byte (2 * 3) /\
  6 = 2 * 3.
Proof.
  assert (H1 : 0 <= 6 <= 8) by lia.
  assert (H2 : 0 <= 2 * 3 <= 8) by lia.
  assert (E : out_byte 6 = out_byte (2 * 3)) by reflexivity.
  split; [exact H1 | split; [exact H2 | split; [exact E |]]].
  exact (out_byte_injective 6 (2 * 3) H1 H2 E).
Defined.

(** ** Further properties of the probe routine *)

Lemma probe_run_any env w :
  runState (mcp23009_probe env) w =
  if negb (alloc_ok env) then (- ENOMEM, w)
  else
    match pdata_num_out env with
    | inl err => (err, mk_world (set_id (probe_id env) zeroed_data) (adapter w))
    | inr n =>
        if n >? 8 then
          (- EINVAL, mk_world (set_id (probe_id env) zeroed_data) (adapter w))
        else
          let d := probed_data env n in
          let b1 := bus_after [0x00; probe_inout_mask n] (adapter w) in
          let b2 := bus_after [0x06; 0xff] b1 in
          if probe_gives_up (next_reply 2 (adapter w)) then (- EIO, mk_world d b1)
          else if probe_gives_up (next_reply 2 b1) then (- EIO, mk_world d b2)
          else (register_err env, mk_world d b2)
    end.
Proof.
  destruct (alloc_ok env) eqn:Ha; cbn [negb].
  2:{ unfold mcp23009_probe. rewrite Ha. reflexivity. }
  destruct (pdata_num_out env) as [err|n] eqn:Hp.
  { unfold mcp23009_probe. rewrite Ha, Hp. reflexivity. }
  destruct (Z.gtb_spec n 8) as [Hgt|Hle].
  - rewrite (probe_rejects env n w Ha Hp) by lia. reflexivity.
  - rewrite (probe_run env n w Ha Hp) by lia. reflexivity.
Qed.

Lemma pdata_num_out_error env err :
  pdata_num_out env = inl err -> err = - ENODEV.
Proof.
  unfold pdata_num_out, mcp23009_probe_dt.
  destruct (platdata env); [discriminate|].
  destruct (CONFIG_OF env); [|congruence].
  destruct (of_node env) as [[?|]|]; congruence.
Qed.

Lemma gives_up_false r : probe_gives_up r = false <-> r = 2.
Proof.
  unfold probe_gives_up.
  destruct (Z.ltb_spec r 0); destruct (Z.eqb_spec r 2); cbn [orb negb];
    split; intros; lia || discriminate || reflexivity.
Qed.

(** X10: the probe routine returns 0 in exactly one situation: the
    device structure was allocated, a pin count of at most 8 was
    supplied, both configuration transfers returned 2 and the device
    registration returned 0. *)
Theorem probe_returns_zero_iff env w :
  fst (runState (mcp23009_probe env) w) = 0 <->
  alloc_ok env = true /\
  exists n, pdata_num_out env = inr n /\ n <= 8 /\
            next_reply 2 (adapter w) = 2 /\
            next_reply 2 (bus_after [0x00; probe_inout_mask n] (adapter w)) = 2 /\
            register_err env = 0.
Proof.
  rewrite probe_run_any. split.
  - destruct (alloc_ok env); cbn [negb fst]; [|discriminate].
    destruct (pdata_num_out env) as [err|n] eqn:Hp.
    { rewrite (pdata_num_out_error env err Hp). discriminate. }
    destruct (Z.gtb_spec n 8) as [Hgt|Hle]; [discriminate|].
    cbv zeta.
    destruct (probe_gives_up (next_reply 2 (adapter w))) eqn:G1; [discriminate|].
    destruct (probe_gives_up (next_reply 2 (bus_after _ (adapter w)))) eqn:G2;
      [discriminate|].
    cbn [fst]. intros E. split; [reflexivity|]. exists n.
    apply gives_up_false in G1. apply gives_up_false in G2. auto.
  - intros (Ha & n & Hp & Hn & R1 & R2 & Re).
    rewrite Ha, Hp. cbn [negb].
    destruct (Z.gtb_spec n 8) as [Hgt|Hle]; [lia|].
    cbv zeta. rewrite R1, R2. cbn. exact Re.
Qed.

(** X11: whatever its outcome, the probe routine hands at most two
    buffers to the transport, each of two bytes and each for the
    direction register [0x00] or the polarity register [0x06]; it never
    writes the output register, so the pins keep what they showed
    before. *)
Theorem probe_sends_configuration_only env w :
  exists fs,
    sent (adapter (snd (runState (mcp23009_probe env) w))) =
      sent (adapter w) ++ fs /\
    (length fs <= 2)%nat /\
    forallb config_frame fs = true.
Proof.
  rewrite probe_run_any.
  destruct (alloc_ok env); cbn [negb];
    [| exists []; rewrite app_nil_r; repeat split; simpl; lia].
  destruct (pdata_num_out env) as [err|n];
    [exists []; rewrite app_nil_r; repeat split; simpl; lia |].
  destruct (n >? 8); [exists []; rewrite app_nil_r; repeat split; simpl; lia |].
  cbv zeta.
  destruct (probe_gives_up (next_reply 2 (adapter w))).
  - exists [[0x00; probe_inout_mask n]].
    cbn [snd adapter bus_after sent]. repeat split. simpl. lia.
  - exists [[0x00; probe_inout_mask n]; [0x06; 0xff]].
    destruct (probe_gives_up _);
      cbn [snd adapter bus_after sent]; rewrite <- app_assoc;
      repeat split; simpl; lia.
Qed.

(** X12: with no platform data and either no device-tree support
    compiled in or no device node, an allocated probe gives up with
    [-ENODEV] and nothing has been handed to the transport. *)
Theorem probe_without_configuration_source env w :
  alloc_ok env = true -> platdata env = None ->
  CONFIG_OF env = false \/ of_node env = None ->
  fst (runState (mcp23009_probe env) w) = - ENODEV /\
  adapter (snd (runState (mcp23009_probe env) w)) = adapter w.
Proof.
  intros Ha Hp Hs. rewrite probe_run_any, Ha. cbn [negb].
  assert (pdata_num_out env = inl (- ENODEV)) as ->.
  { unfold pdata_num_out, mcp23009_probe_dt. rewrite Hp.
    destruct Hs as [-> | ->]; [reflexivity|].
    destruct (CONFIG_OF env); reflexivity. }
  split; reflexivity.
Qed.

Lemma probe_without_configuration_source_witness :
  alloc_ok (mk_env true true None 0 0 None 0) = true /\
  platdata (mk_env true true None 0 0 None 0) = None /\
  (CONFIG_OF (mk_env true true None 0 0 None 0) = false \/
   of_node (mk_env true true None 0 0 None 0) = None) /\
  fst (runState (mcp23009_probe (mk_env true true None 0 0 None 0))
                (w_ready 0 0 [])) = - ENODEV.
Proof.
  split; [reflexivity | split; [reflexivity |]].
  assert (Hs : CONFIG_OF (mk_env true true None 0 0 None 0) = false \/
               of_node (mk_env true true None 0 0 None 0) = None)
    by (right; reflexivity).
  split; [exact Hs |].
  exact (proj1 (probe_without_configuration_source
                  (mk_env true true None 0 0 None 0) (w_ready 0 0 [])
                  eq_refl eq_refl Hs)).
Defined.

(** X13: a device node without a readable "num-out" property is
    probed exactly as one whose property reads 8: same return value,
    same private data, same buffers sent. *)
Theorem probe_defaults_to_eight_outputs env w :
  platdata env = None -> CONFIG_OF env = true -> of_node env = Some None ->
  runState (mcp23009_probe env) w =
  runState (mcp23009_probe (with_of_node (Some (Some 8)) env)) w.
Proof.
  intros Hp Hc Hn. rewrite !probe_run_any.
  unfold pdata_num_out, mcp23009_probe_dt, probed_data, probe_id, with_of_node.
  cbn [alloc_ok platdata CONFIG_OF of_node of_match_data id_driver_data
       register_err].
  rewrite Hp, Hc, Hn. reflexivity.
Qed.

Lemma probe_defaults_to_eight_outputs_witness :
  platdata (mk_env true true (Some None) 0 0 None 0) = None /\
  CONFIG_OF (mk_env true true (Some None) 0 0 None 0) = true /\
  of_node (mk_env true true (Some None) 0 0 None 0) = Some None /\
  runState (mcp23009_probe (mk_env true true (Some None) 0 0 None 0))
           (w_ready 0 0 []) =
  (0, mk_world (mk_data 0 8 0 0) (mk_bus [[0x00; 0x00]; [0x06; 0xff]] [])).
Proof.
  split; [reflexivity | split; [reflexivity | split; [reflexivity |]]].
  rewrite (probe_defaults_to_eight_outputs
             (mk_env true true (Some None) 0 0 None 0) (w_ready 0 0 [])
             eq_refl eq_refl eq_refl).
  reflexivity.
Defined.

(** X14: platform data takes precedence over the device tree: two
    probes that get the same pin count from platform data return the
    same value, send the same buffers and store the same pin count,
    mask and value, whatever the device node of either says. *)
Theorem probe_platform_data_first e1 e2 n w :
  platdata e1 = Some n -> platdata e2 = Some n ->
  alloc_ok e1 = alloc_ok e2 -> register_err e1 = register_err e2 ->
  let r1 := runState (mcp23009_probe e1) w in
  let r2 := runState (mcp23009_probe e2) w in
  fst r1 = fst r2 /\ adapter (snd r1) = adapter (snd r2) /\
  num_out (priv (snd r1)) = num_out (priv (snd r2)) /\
  inout_mask (priv (snd r1)) = inout_mask (priv (snd r2)) /\
  out_value (priv (snd r1)) = out_value (priv (snd r2)).
Proof.
  intros H1 H2 Ha Hr. cbv zeta. rewrite !probe_run_any.
  unfold pdata_num_out. rewrite H1, H2, Ha, Hr.
  destruct (alloc_ok e2); cbn [negb]; [|repeat split].
  destruct (n >? 8); [repeat split|].
  cbv zeta.
  destruct (probe_gives_up (next_reply 2 (adapter w))); [repeat split|].
  destruct (probe_gives_up _); repeat split.
Qed.

Lemma probe_platform_data_first_witness :
  platdata (env_platform 3) = Some 3 /\
  platdata (mk_env true false (Some (Some 7)) 1 2 (Some 3) 0) = Some 3 /\
  alloc_ok (env_platform 3) =
    alloc_ok (mk_env true false (Some (Some 7)) 1 2 (Some 3) 0) /\
  register_err (env_platform 3) =
    register_err (mk_env true false (Some (Some 7)) 1 2 (Some 3) 0) /\
  fst (runState (mcp23009_probe (env_platform 3)) (w_ready 0 0 [2; 1])) =
  fst (runState (mcp23009_probe
                   (mk_env true false (Some (Some 7)) 1 2 (Some 3) 0))
                (w_ready 0 0 [2; 1])).
Proof.
  split; [reflexivity | split; [reflexivity |]].
  split; [reflexivity | split; [reflexivity |]].
  exact (proj1 (probe_platform_data_first
                  (env_platform 3)
                  (mk_env true false (Some (Some 7)) 1 2 (Some 3) 0)
                  3 (w_ready 0 0 [2; 1]) eq_refl eq_refl eq_refl eq_refl)).
Defined.

(** X15: after a probe that returned 0, every buffer sent while
    serving write and read requests addresses the output register with
    a byte that shares no bit with the stored direction mask: the
    driver only ever raises a pin among the [num_out] lowest ones. *)
Theorem served_frames_clear_of_mask env w0 w1 w :
  env_typed env = true ->
  runState (mcp23009_probe env) w0 = (0, w1) ->
  reachable w1 w ->
  exists fs, sent (adapter w) = sent (adapter w1) ++ fs /\
             forallb (clear_of_mask (inout_mask (priv w))) fs = true.
Proof.
  intros Ht Hr Hw.
  destruct (probe_success env w0 w1 Ht Hr) as (n & Hn & _ & Hd & _).
  assert (num_out (priv w) = n /\ inout_mask (priv w) = probe_inout_mask n /\
          exists fs, sent (adapter w) = sent (adapter w1) ++ fs /\
                     forallb (clear_of_mask (probe_inout_mask n)) fs = true)
    as (_ & Em & fs & E & F).
  { induction Hw as [| w rq _ (In & Im & fs & E & F) | w script _ IH].
    - rewrite Hd. cbn [priv probed_data num_out inout_mask].
      repeat split. exists []. rewrite app_nil_r. auto.
    - destruct (serve_step_shape rq w)
        as (_ & E2 & E3 & [S | (val & Hv & Hle & S)]).
      + rewrite E2, E3. repeat split; try assumption.
        exists fs. rewrite S. auto.
      + rewrite E2, E3. repeat split; try assumption.
        exists (fs ++ [[0x09; out_byte val]]).
        rewrite S, E, app_assoc. split; [reflexivity|].
        rewrite forallb_app, F. cbn [forallb andb].
        rewrite small_u32 in Hle by lia.
        rewrite out_byte_clear_of_mask by lia. reflexivity.
    - exact IH. }
  exists fs. rewrite Em. auto.
Qed.

Lemma served_frames_clear_of_mask_witness :
  env_typed (env_platform 3) = true /\
  runState (mcp23009_probe (env_platform 3)) (w_ready 0 0 []) =
    (0, mk_world (mk_data 0 3 0 0xF8) (mk_bus [[0x00; 0xF8]; [0x06; 0xff]] [])) /\
  exists fs,
    sent (adapter
            (snd (runState (serve (WriteRaw 2 0 IIO_CHAN_INFO_RAW))
                    (mk_world (mk_data 0 3 0 0xF8)
                              (mk_bus [[0x00; 0xF8]; [0x06; 0xff]] []))))) =
      [[0x00; 0xF8]; [0x06; 0xff]] ++ fs /\
    forallb (clear_of_mask 0xF8) fs = true.
Proof.
  split; [reflexivity | split; [reflexivity |]].
  exact (served_frames_clear_of_mask (env_platform 3) (w_ready 0 0 [])
           (mk_world (mk_data 0 3 0 0xF8)
                     (mk_bus [[0x00; 0xF8]; [0x06; 0xff]] []))
           _ eq_refl eq_refl
           (reach_serve _ _ (WriteRaw 2 0 IIO_CHAN_INFO_RAW) (reach_init _))).
Defined.
